(** * Simple Bedrock Connector: the Lambda handler, verified

    A shallow embedding of [lambda/handler.py]: token validation against the
    secret store, model resolution, the OpenAI -> Bedrock message conversion,
    the Bedrock -> OpenAI response conversion and the request pipeline,
    followed by the properties the specification states about them.

    Conventions.
    - A Python [str] is a [string], one [ascii] per character.
    - A Python [dict] read from JSON is a [gmap string json]; the dict
      literals the handler builds itself are records.
    - A Python exception is a value of [exn]; a computation that may raise
      returns [res]; a computation that also talks to the outside world
      (secret store, logger, Bedrock) returns [M], which carries the list of
      effects performed, in order. *)

From Stdlib Require Import ZArith QArith String Ascii List Bool Lia.
From stdpp Require Import gmap strings list fin_maps.

Open Scope Z_scope.
Open Scope string_scope.

(* ===================================================================== *)
(** ** Python strings *)
(* ===================================================================== *)

(** [s[n:]] *)
Fixpoint slice_from (n : nat) (s : string) : string :=
  match n, s with
  | O, _ => s
  | S _, EmptyString => EmptyString
  | S n', String _ s' => slice_from n' s'
  end.

(** [s[:n]] *)
Definition slice_to (n : nat) (s : string) : string := substring 0 n s.

(** [s.startswith(p)] *)
Definition startswith (s p : string) : bool := String.prefix p s.

(** [sub in s] for two strings: [sub] occurs somewhere in [s]. *)
Fixpoint str_in (sub s : string) : bool :=
  String.prefix sub s ||
  match s with
  | EmptyString => false
  | String _ s' => str_in sub s'
  end.

(** [sep.join(parts)] *)
Definition join (sep : string) (parts : list string) : string :=
  String.concat sep parts.

(* ===================================================================== *)
(** ** JSON values, as [json.loads] produces them *)
(* ===================================================================== *)

(** A float is kept as the rational it denotes: the handler never computes
    with one, it only tests it for truth and passes it on. *)
#[warnings="-register-all"] Inductive json : Type :=
  | JNull
  | JBool (b : bool)
  | JInt (n : Z)
  | JFloat (q : Q)
  | JStr (s : string)
  | JList (l : list json)
  | JDict (d : gmap string json).

(** [bool(v)]: Python truthiness. *)
Definition truthy (v : json) : bool :=
  match v with
  | JNull => false
  | JBool b => b
  | JInt n => negb (n =? 0)%Z
  | JFloat q => negb (Qeq_bool q 0)
  | JStr s => negb (String.eqb s "")
  | JList l => match l with [] => false | _ => true end
  | JDict d => match map_to_list d with [] => false | _ => true end
  end.

(** [v == s] where [s] is a [str]: only an equal string is equal to it. *)
Definition eq_str (v : json) (s : string) : bool :=
  match v with
  | JStr s' => String.eqb s' s
  | _ => false
  end.

(** [d.get(k)], which yields [None] for a missing key, and
    [d.get(k, dflt)]. *)
Definition dict_get (d : gmap string json) (k : string) : json :=
  default JNull (d !! k).

Definition dict_get_or (d : gmap string json) (k : string) (dflt : json) : json :=
  default dflt (d !! k).

(* ===================================================================== *)
(** ** Exceptions and results *)
(* ===================================================================== *)

Inductive exn : Type :=
  | ClientError (code : string)   (* botocore.exceptions.ClientError *)
  | JSONDecodeError
  | KeyError (key : string)
  | TypeError
  | ValueError
  | AttributeError.

Inductive res (A : Type) : Type :=
  | Ok (a : A)
  | Raise (e : exn).

Arguments Ok {A} a.
Arguments Raise {A} e.

(** [d[k]] *)
Definition dict_item (d : gmap string json) (k : string) : res json :=
  match d !! k with
  | Some v => Ok v
  | None => Raise (KeyError k)
  end.

(** Calling [.get] on a value: only a dict has the method. *)
Definition as_dict (v : json) : res (gmap string json) :=
  match v with
  | JDict d => Ok d
  | _ => Raise AttributeError
  end.

(** [len(v)] *)
Definition py_len (v : json) : res nat :=
  match v with
  | JStr s => Ok (String.length s)
  | JList l => Ok (List.length l)
  | JDict d => Ok (size d)
  | _ => Raise TypeError
  end.

(** The items [for x in v] goes through: the elements of a list, the
    characters of a string, the keys of a dict (in the order of
    [map_to_list]; the handler stops at the first key whatever it is). *)
Definition py_iter (v : json) : res (list json) :=
  match v with
  | JStr s => Ok (map (fun c => JStr (String c EmptyString)) (list_ascii_of_string s))
  | JList l => Ok l
  | JDict d => Ok (map (fun kv => JStr (fst kv)) (map_to_list d))
  | _ => Raise TypeError
  end.

(** A [str] whose only use is to be handed to [json.loads] is represented
    by what the decoder makes of it: a text that is no JSON document (with
    its characters), or the document it encodes. *)
Inductive json_text : Type :=
  | NotJson (raw : string)
  | Dumps (v : json).

(** [json.loads(t)] for a [str] argument. *)
Definition json_loads (t : json_text) : res json :=
  match t with
  | NotJson _ => Raise JSONDecodeError
  | Dumps v => Ok v
  end.

(* ===================================================================== *)
(** ** Timestamps *)
(* ===================================================================== *)

(** A [datetime], as microseconds since the epoch; an aware one denotes an
    instant, a naive one carries no offset. *)
Inductive datetime : Type :=
  | Naive (t : Z)
  | Aware (t : Z).

(** [a > b] on datetimes raises [TypeError] when one is naive and the other
    aware. *)
Definition datetime_gt (a b : datetime) : res bool :=
  match a, b with
  | Aware x, Aware y => Ok (y <? x)%Z
  | Naive x, Naive y => Ok (y <? x)%Z
  | _, _ => Raise TypeError
  end.

(* ===================================================================== *)
(** ** The Bedrock Converse API, as the handler uses it *)
(* ===================================================================== *)

Module Bedrock.

(** [{"text": content}] *)
Record TextBlock : Type := { text : json }.

(** [{"role": bedrock_role, "content": [{"text": content}]}] *)
Record Turn : Type := { role : string; content : list TextBlock }.

Record InferenceConfig : Type :=
  { maxTokens : json; temperature : json; topP : json }.

(** The keyword arguments of [bedrock_client.converse]; [system] is [None]
    when the key is not in [kwargs]. *)
Record Kwargs : Type :=
  { modelId : string;
    messages : list Turn;
    inferenceConfig : InferenceConfig;
    system : option (list TextBlock) }.

(** What [converse] returns.  Every member the handler reads with [.get]
    may be absent; a content block may have no ["text"] member (a tool
    use or an image, say). *)
Record ContentBlock : Type := { block_text : option string }.

Record Message : Type := { message_content : option (list ContentBlock) }.

Record Output : Type := { message : option Message }.

Record TokenUsage : Type :=
  { inputTokens : option Z;
    outputTokens : option Z;
    totalTokens : option Z }.

Record Response : Type :=
  { output : option Output;
    stopReason : option string;
    usage : option TokenUsage }.

End Bedrock.

(* ===================================================================== *)
(** ** The OpenAI chat completion and the API Gateway response *)
(* ===================================================================== *)

Module OpenAI.

Record ChatMessage : Type := { role : string; content : string }.

Record Choice : Type :=
  { index : Z; message : ChatMessage; finish_reason : string }.

Record Usage : Type :=
  { prompt_tokens : Z; completion_tokens : Z; total_tokens : Z }.

Record ChatCompletion : Type :=
  { id : string;
    object : string;
    created : Z;
    model : string;
    choices : list Choice;
    usage : Usage }.

End OpenAI.

(** The dict handed to [response]: an error envelope
    [{"error": {"message": m, "type": t}}] or a chat completion. *)
Inductive envelope : Type :=
  | ErrorEnvelope (message type : string)
  | Completion (c : OpenAI.ChatCompletion).

(** The API Gateway response; [body] holds the dict that [json.dumps]
    serialises. *)
Record ApiResponse : Type :=
  { statusCode : Z;
    headers : list (string * string);
    body : envelope }.

(** The identity dict [validate_token] returns. *)
Record Identity : Type :=
  { identity : json; created_at : json; expires_at : json }.

(** The Lambda event.  A field is [None] when the key is not in the event.
    The headers, when present, map names to values; the body, when present,
    is a string or [null] (API Gateway sends [null] for a request without a
    body). *)
Inductive body_value : Type :=
  | BodyNull
  | BodyStr (t : json_text).

Record Event : Type :=
  { ev_headers : option (gmap string string);
    ev_body : option body_value }.

(* ===================================================================== *)
(** ** Effects and the monad of the handler *)
(* ===================================================================== *)

(** What the logger is given. *)
Inductive log_entry : Type :=
  | TokenExpired (who : json)
      (* warning: Token expired for identity: ... *)
  | LogRequest (who : json) (model_requested model_resolved : string)
               (message_count : nat)
  | LogBedrockError (code : string)
  | LogResponse (who : json) (model : string) (usage : OpenAI.Usage)
                (finish_reason : string).

Inductive effect : Type :=
  | GetSecretValue (SecretId : string)
  | Log (entry : log_entry)
  | Converse (kwargs : Bedrock.Kwargs).

(** A computation: the effects it performed, and its result or the
    exception that ended it. *)
Definition M (A : Type) : Type := (list effect * res A)%type.

Definition ret {A} (a : A) : M A := ([], Ok a).

Definition bind {A B} (m : M A) (k : A -> M B) : M B :=
  match m with
  | (t, Ok a) => let '(t', r) := k a in ((t ++ t')%list, r)
  | (t, Raise e) => (t, Raise e)
  end.

Definition lift {A} (r : res A) : M A := ([], r).

Definition perform (e : effect) : M unit := ([e], Ok tt).

Notation "'let*' x ':=' m 'in' k" := (bind m (fun x => k))
  (at level 10, x pattern, m at level 100, k at level 200).

Notation "m ';;' k" := (bind m (fun _ => k))
  (at level 100, k at level 200, right associativity).

(** [try: m  except ClientError as e: h e.response["Error"]["Code"]] *)
Definition except_ClientError {A} (m : M A) (h : string -> M A) : M A :=
  match m with
  | (t, Raise (ClientError code)) => let '(t', r) := h code in ((t ++ t')%list, r)
  | _ => m
  end.

(** The outside world of one invocation. *)
Record World : Type :=
  { (** [secrets_client.get_secret_value(SecretId=...)]: the response's
        ["SecretString"] member when there is one (a binary secret has
        none), or the exception the client raises. *)
    get_secret_value : string -> res (option json_text);
    (** [datetime.now(timezone.utc)], in microseconds. *)
    utcnow : Z;
    (** [datetime.fromisoformat] on a string; [None] is its [ValueError]. *)
    fromisoformat : string -> option datetime;
    (** [bedrock_client.converse], applied to the keyword arguments. *)
    converse : Bedrock.Kwargs -> res Bedrock.Response;
    (** [uuid.uuid4().hex] and [int(time.time())] *)
    uuid4_hex : string;
    time_time : Z }.

(* ===================================================================== *)
(** ** [handler.py] *)
(* ===================================================================== *)

Import Bedrock.

Definition SECRET_PREFIX : string := "sbc/tokens/".

(** Model mapping: OpenAI model name -> Bedrock model ID *)
Definition MODEL_MAP : gmap string string :=
  list_to_map
    [ ("claude-4-opus", "anthropic.claude-4-opus-20250514-v1:0");
      ("claude-4-sonnet", "anthropic.claude-4-sonnet-20250514-v1:0");
      ("claude-3.5-sonnet", "anthropic.claude-3-5-sonnet-20241022-v2:0");
      ("claude-3.5-haiku", "anthropic.claude-3-5-haiku-20241022-v1:0");
      ("llama-3.3-70b", "meta.llama3-3-70b-instruct-v1:0");
      ("llama-3.1-405b", "meta.llama3-1-405b-instruct-v1:0");
      ("mistral-large", "mistral.mistral-large-2407-v1:0");
      ("gpt-4", "anthropic.claude-4-sonnet-20250514-v1:0");
      ("gpt-4o", "anthropic.claude-4-sonnet-20250514-v1:0");
      ("gpt-3.5-turbo", "anthropic.claude-3-5-haiku-20241022-v1:0") ].

Definition DEFAULT_MODEL : string := "anthropic.claude-4-sonnet-20250514-v1:0".

(** [response["SecretString"]] *)
Definition secret_string (response : option json_text) : res json_text :=
  match response with
  | Some t => Ok t
  | None => Raise (KeyError "SecretString")
  end.

(** [datetime.fromisoformat(v)]: a [TypeError] unless [v] is a string. *)
Definition datetime_fromisoformat (w : World) (v : json) : res datetime :=
  match v with
  | JStr s =>
      match fromisoformat w s with
      | Some t => Ok t
      | None => Raise ValueError
      end
  | _ => Raise TypeError
  end.

(** Validate bearer token against Secrets Manager. Returns identity or
    None. *)
Definition validate_token (w : World) (token : string) : M (option Identity) :=
  let secret_name := SECRET_PREFIX +:+ slice_to 12 token in
  except_ClientError
    (perform (GetSecretValue secret_name);;
     let* response := lift (get_secret_value w secret_name) in
     let* secret_text := lift (secret_string response) in
     let* secret := lift (json_loads secret_text) in
     (* Verify exact token match *)
     let* secret := lift (as_dict secret) in
     if negb (eq_str (dict_get secret "token") token) then ret None
     else
       (* Check expiry *)
       let* raw := lift (dict_item secret "expires_at") in
       let* expires := lift (datetime_fromisoformat w raw) in
       let* expired := lift (datetime_gt (Aware (utcnow w)) expires) in
       if expired then
         perform (Log (TokenExpired (dict_get secret "identity")));;
         ret None
       else
         let* who := lift (dict_item secret "identity") in
         let* created := lift (dict_item secret "created_at") in
         let* until := lift (dict_item secret "expires_at") in
         ret (Some {| identity := who;
                      created_at := created;
                      expires_at := until |}))
    (fun _ => ret None).

(** Map OpenAI model name to Bedrock model ID. *)
Definition resolve_model (model_name : string) : string :=
  default (if str_in "." model_name then model_name else DEFAULT_MODEL)
          (MODEL_MAP !! model_name).

(** [resolve_model] on whatever the body has under ["model"]: for a value
    that is no string, either ["." in model_name] or the hashing of the
    key raises [TypeError]. *)
Definition resolve_model_json (model_name : json) : res (string * string) :=
  match model_name with
  | JStr s => Ok (s, resolve_model s)
  | _ => Raise TypeError
  end.

(** The loop of [invoke_bedrock] that converts OpenAI messages to Bedrock
    Converse format, appending to [bedrock_messages] and
    [system_prompts]. *)
Fixpoint convert_messages (msgs : list json)
    (bedrock_messages : list Turn) (system_prompts : list TextBlock)
  : res (list Turn * list TextBlock) :=
  match msgs with
  | [] => Ok (bedrock_messages, system_prompts)
  | msg :: rest =>
      match as_dict msg with
      | Raise e => Raise e
      | Ok msg =>
          let role := dict_get_or msg "role" (JStr "user") in
          let content := dict_get_or msg "content" (JStr "") in
          if eq_str role "system" then
            convert_messages rest bedrock_messages
              (system_prompts ++ [ {| text := content |} ])%list
          else
            let bedrock_role :=
              if eq_str role "user" then "user" else "assistant" in
            convert_messages rest
              (bedrock_messages ++
                 [ {| role := bedrock_role;
                      content := [ {| text := content |} ] |} ])%list
              system_prompts
      end
  end.

(** The [kwargs] dict of [invoke_bedrock]: the ["system"] key is set only
    when [system_prompts] is a non-empty list. *)
Definition converse_kwargs (model_id : string) (bedrock_messages : list Turn)
    (system_prompts : list TextBlock) (params : gmap string json) : Kwargs :=
  {| modelId := model_id;
     messages := bedrock_messages;
     inferenceConfig :=
       {| maxTokens := dict_get_or params "max_tokens" (JInt 4096);
          temperature := dict_get_or params "temperature" (JFloat (7 # 10));
          topP := dict_get_or params "top_p" (JFloat 1) |};
     system :=
       match system_prompts with
       | [] => None
       | _ => Some system_prompts
       end |}.

(** Invoke Bedrock with Converse API and return response. *)
Definition invoke_bedrock (w : World) (model_id : string) (msgs : json)
    (params : gmap string json) : M Bedrock.Response :=
  let* items := lift (py_iter msgs) in
  let* (bedrock_messages, system_prompts) :=
    lift (convert_messages items [] []) in
  let kwargs :=
    converse_kwargs model_id bedrock_messages system_prompts params in
  perform (Converse kwargs);;
  lift (converse w kwargs).

(** Map Bedrock stop reasons to OpenAI finish reasons. *)
Definition _map_stop_reason (reason : string) : string :=
  let mapping : gmap string string :=
    list_to_map
      [ ("end_turn", "stop");
        ("max_tokens", "length");
        ("stop_sequence", "stop");
        ("content_filtered", "content_filter") ] in
  default "stop" (mapping !! reason).

(** [b.get("text", "")] *)
Definition text_of_block (b : ContentBlock) : string :=
  default "" (block_text b).

(** Convert Bedrock Converse response to OpenAI chat completion format. *)
Definition to_openai_response (w : World) (bedrock_response : Bedrock.Response)
    (model_name : string) : OpenAI.ChatCompletion :=
  let output := default {| message := None |} (output bedrock_response) in
  let message := default {| message_content := None |} (message output) in
  let content_blocks := default [] (message_content message) in
  let text := join "" (map text_of_block content_blocks) in
  let usage :=
    default {| inputTokens := None; outputTokens := None; totalTokens := None |}
            (usage bedrock_response) in
  {| OpenAI.id := "chatcmpl-" +:+ slice_to 29 (uuid4_hex w);
     OpenAI.object := "chat.completion";
     OpenAI.created := time_time w;
     OpenAI.model := model_name;
     OpenAI.choices :=
       [ {| OpenAI.index := 0;
            OpenAI.message :=
              {| OpenAI.role := "assistant"; OpenAI.content := text |};
            OpenAI.finish_reason :=
              _map_stop_reason (default "end_turn" (stopReason bedrock_response)) |} ];
     OpenAI.usage :=
       {| OpenAI.prompt_tokens := default 0 (inputTokens usage);
          OpenAI.completion_tokens := default 0 (outputTokens usage);
          OpenAI.total_tokens :=
            default 0 (inputTokens usage) + default 0 (outputTokens usage) |} |}.

(** Build API Gateway response. *)
Definition response (status_code : Z) (body : envelope) : ApiResponse :=
  {| statusCode := status_code;
     headers :=
       [ ("Content-Type", "application/json");
         ("Access-Control-Allow-Origin", "*") ];
     body := body |}.

(** The first lines of [handler]: the auth header, read under the key
    ["authorization"] and, when that key is missing, under the key
    ["Authorization"]; the empty string when both are missing. *)
Definition auth_header (event : Event) : string :=
  let headers := default ∅ (ev_headers event) in
  default (default "" (headers !! "Authorization"))
          (headers !! "authorization").

(** The token after ["Bearer "], when the auth header starts with it. *)
Definition bearer_token (event : Event) : option string :=
  if negb (startswith (auth_header event) "Bearer ") then None
  else Some (slice_from 7 (auth_header event)).

(** [json.loads(event.get("body", "{}"))] *)
Definition loads_body (event : Event) : res json :=
  match default (BodyStr (Dumps (JDict ∅))) (ev_body event) with
  | BodyNull => Raise TypeError
  | BodyStr t => json_loads t
  end.

(** The parameters [handler] passes to [invoke_bedrock]. *)
Definition inference_params (body : gmap string json) : gmap string json :=
  list_to_map
    [ ("max_tokens", dict_get_or body "max_tokens" (JInt 4096));
      ("temperature", dict_get_or body "temperature" (JFloat (7 # 10)));
      ("top_p", dict_get_or body "top_p" (JFloat 1)) ].

(** The second half of [handler], from the parsed [body] on: read the
    model and the messages, resolve the model, invoke Bedrock and convert
    its response. *)
Definition chat_completion (w : World) (identity' : Identity) (body : json)
  : M ApiResponse :=
  let* body := lift (as_dict body) in
  let model_name := dict_get_or body "model" (JStr "gpt-4o") in
  let msgs := dict_get_or body "messages" (JList []) in
  if negb (truthy msgs) then
    ret (response 400
           (ErrorEnvelope "messages is required" "invalid_request_error"))
  else
  (* Resolve Bedrock model *)
  let* (model_name, model_id) := lift (resolve_model_json model_name) in
  (* Log request (CloudWatch) *)
  let* message_count := lift (py_len msgs) in
  perform (Log (LogRequest (identity identity') model_name model_id
                           message_count));;
  (* Invoke Bedrock *)
  let* outcome :=
    except_ClientError
      (let* r := invoke_bedrock w model_id msgs (inference_params body) in
       ret (inr r))
      (fun error_code =>
         perform (Log (LogBedrockError error_code));;
         ret (inl (response 502
                     (ErrorEnvelope ("Bedrock error: " +:+ error_code)
                                    "api_error")))) in
  match outcome with
  | inl failed => ret failed
  | inr bedrock_response =>
      (* Convert to OpenAI format *)
      let result := to_openai_response w bedrock_response model_name in
      (* Log response (CloudWatch) *)
      perform (Log (LogResponse (identity identity') model_name
                      (OpenAI.usage result)
                      (match OpenAI.choices result with
                       | c :: _ => OpenAI.finish_reason c
                       | [] => ""
                       end)));;
      ret (response 200 (Completion result))
  end.

(** Lambda entry point. *)
Definition handler (w : World) (event : Event) : M ApiResponse :=
  (* Extract auth header *)
  match bearer_token event with
  | None =>
      ret (response 401
             (ErrorEnvelope "Missing or invalid Authorization header"
                            "auth_error"))
  | Some token =>
      (* Validate token *)
      let* identity' := validate_token w token in
      (* [if not identity]: an identity dict has three keys, so only [None]
         is falsy *)
      match identity' with
      | None =>
          ret (response 403
                 (ErrorEnvelope "Invalid or expired token" "auth_error"))
      | Some identity' =>
          (* Parse request body *)
          match loads_body event with
          | Raise JSONDecodeError =>
              ret (response 400
                     (ErrorEnvelope "Invalid JSON body" "invalid_request_error"))
          | Raise e => lift (Raise e)
          | Ok body => chat_completion w identity' body
          end
      end
  end.

(* ===================================================================== *)
(** ** Concrete worlds, for the examples *)
(* ===================================================================== *)

Module Sample.

(** A secret store that is up and holds [secrets]: a missing name is the
    service's [ResourceNotFoundException]. *)
Definition serving (secrets : gmap string json_text)
  : string -> res (option json_text) :=
  fun name =>
    match secrets !! name with
    | Some t => Ok (Some t)
    | None => Raise (ClientError "ResourceNotFoundException")
    end.

(** A secret store that answers every call with a service error. *)
Definition unavailable (code : string) : string -> res (option json_text) :=
  fun _ => Raise (ClientError code).

(** A reader for the timestamps [datetime.isoformat()] writes:
    [YYYY-MM-DDTHH:MM:SS], an optional [.ffffff] and an optional
    [+HH:MM] or [-HH:MM] offset. *)
Definition digit_of (c : ascii) : option Z :=
  let n := Z.of_N (N_of_ascii c) in
  if ((48 <=? n) && (n <=? 57))%Z then Some (n - 48) else None.

Fixpoint read_digits (k : nat) (acc : Z) (s : string) : option (Z * string) :=
  match k with
  | O => Some (acc, s)
  | S k' =>
      match s with
      | String c s' =>
          match digit_of c with
          | Some d => read_digits k' (10 * acc + d) s'
          | None => None
          end
      | EmptyString => None
      end
  end.

Definition read_char (c : ascii) (s : string) : option string :=
  match s with
  | String c' s' => if Ascii.eqb c c' then Some s' else None
  | EmptyString => None
  end.

(** Days from 1970-01-01 to the given civil date. *)
Definition days_from_civil (y m d : Z) : Z :=
  let y' := if (m <=? 2)%Z then y - 1 else y in
  let era := y' / 400 in
  let yoe := y' - era * 400 in
  let mp := (m + 9) mod 12 in
  let doy := (153 * mp + 2) / 5 + d - 1 in
  let doe := yoe * 365 + yoe / 4 - yoe / 100 + doy in
  era * 146097 + doe - 719468.

Definition read_offset (s : string) : option Z :=
  '(hh, s) ← read_digits 2 0 s;
  s ← read_char ":" s;
  '(mm, s) ← read_digits 2 0 s;
  if String.eqb s "" then Some ((hh * 60 + mm) * 60000000) else None.

Definition read_isoformat (s : string) : option datetime :=
  '(y, s) ← read_digits 4 0 s;
  s ← read_char "-" s;
  '(m, s) ← read_digits 2 0 s;
  s ← read_char "-" s;
  '(d, s) ← read_digits 2 0 s;
  s ← read_char "T" s;
  '(hh, s) ← read_digits 2 0 s;
  s ← read_char ":" s;
  '(mi, s) ← read_digits 2 0 s;
  s ← read_char ":" s;
  '(ss, s) ← read_digits 2 0 s;
  '(us, s) ← match read_char "." s with
             | Some s' => read_digits 6 0 s'
             | None => Some (0, s)
             end;
  if negb ((1 <=? m) && (m <=? 12) && (1 <=? d) && (d <=? 31)
           && (hh <? 24) && (mi <? 60) && (ss <? 60))%Z then None
  else
    let t := (((days_from_civil y m d * 24 + hh) * 60 + mi) * 60 + ss)
             * 1000000 + us in
    match s with
    | EmptyString => Some (Naive t)
    | String "+" s' => off ← read_offset s'; Some (Aware (t - off))
    | String "-" s' => off ← read_offset s'; Some (Aware (t + off))
    | _ => None
    end.

(** The instant a timestamp denotes; 0 for a string that is none. *)
Definition instant (s : string) : Z :=
  match read_isoformat s with
  | Some (Aware t) | Some (Naive t) => t
  | None => 0
  end.

(** A Bedrock backend that answers every call with [r]. *)
Definition answering (r : res Bedrock.Response)
  : Bedrock.Kwargs -> res Bedrock.Response :=
  fun _ => r.

(** A realistic Bedrock Converse API response. *)
Definition hello : Bedrock.Response :=
  {| output :=
       Some {| message :=
         Some {| message_content :=
           Some [ {| block_text := Some "Hello! How can I help you today?" |} ] |} |};
     stopReason := Some "end_turn";
     usage := Some {| inputTokens := Some 12;
                      outputTokens := Some 9;
                      totalTokens := Some 21 |} |}.

(** The record the token generator stores for a token. *)
Definition secret_record (token who created expires : string) : json_text :=
  Dumps (JDict (list_to_map
    [ ("token", JStr token);
      ("identity", JStr who);
      ("created_at", JStr created);
      ("expires_at", JStr expires) ])).

Definition token : string := "validtoken12-kG7w2pQ9".

(** 2025-01-15 12:00 UTC *)
Definition noon : Z :=
  Eval vm_compute in instant "2025-01-15T12:00:00+00:00".

(** 2025-01-31 00:00 UTC *)
Definition end_of_january : Z :=
  Eval vm_compute in instant "2025-01-31T00:00:00+00:00".

(** A world at the instant [now] with the given store and backend. *)
Definition world (now : Z) (store : string -> res (option json_text))
    (backend : Bedrock.Kwargs -> res Bedrock.Response) : World :=
  {| get_secret_value := store;
     utcnow := now;
     fromisoformat := read_isoformat;
     converse := backend;
     uuid4_hex := "0123456789abcdef0123456789abcdef";
     time_time := 1736942400 |}.

(** Another token with the same first 12 characters. *)
Definition lookalike : string := "validtoken12-ZZZZZZZZ".

Definition name : string := "sbc/tokens/validtoken12".

(** A store that holds the text [t] under [name]. *)
Definition storing (t : json_text) : string -> res (option json_text) :=
  serving {[ name := t ]}.

(** The record of [token], valid until the end of January. *)
Definition good : json_text :=
  secret_record token "logan@dev"
    "2025-01-01T00:00:00+00:00" "2025-01-31T00:00:00+00:00".

(** Stored values that are no well-formed record. *)
Definition not_json : json_text := NotJson "token=validtoken12".

Definition no_expiry : json_text :=
  Dumps (JDict (list_to_map
    [ ("token", JStr token);
      ("identity", JStr "logan@dev");
      ("created_at", JStr "2025-01-01T00:00:00+00:00") ])).

Definition no_identity : json_text :=
  Dumps (JDict (list_to_map
    [ ("token", JStr token);
      ("created_at", JStr "2025-01-01T00:00:00+00:00");
      ("expires_at", JStr "2025-01-31T00:00:00+00:00") ])).

Definition bad_expiry : json_text :=
  secret_record token "logan@dev" "2025-01-01T00:00:00+00:00" "next month".

Definition backend : Bedrock.Kwargs -> res Bedrock.Response :=
  answering (Ok hello).

(** A request with one header and the given body. *)
Definition request (header_name header_value : string)
    (body : option body_value) : Event :=
  {| ev_headers := Some {[ header_name := header_value ]};
     ev_body := body |}.

(** A request that presents [token], with the given body. *)
Definition authorized (body : option body_value) : Event :=
  request "Authorization" ("Bearer " +:+ token) body.

Definition user_says (what : string) : gmap string json :=
  list_to_map [ ("role", JStr "user"); ("content", JStr what) ].

Definition system_says (what : string) : gmap string json :=
  list_to_map [ ("role", JStr "system"); ("content", JStr what) ].

(** A body with messages and no model. *)
Definition say_hi : gmap string json :=
  {[ "messages" := JList [ JDict (user_says "hi") ] ]}.

End Sample.

(* ===================================================================== *)
(** ** Vocabulary of the properties *)
(* ===================================================================== *)

(** The role of a message, as the conversion loop reads it. *)
Definition role_of (msg : gmap string json) : json :=
  dict_get_or msg "role" (JStr "user").

Definition content_of (msg : gmap string json) : json :=
  dict_get_or msg "content" (JStr "").

Definition is_system (msg : gmap string json) : bool :=
  eq_str (role_of msg) "system".

(** The turn a non-system message becomes. *)
Definition turn_of (msg : gmap string json) : Turn :=
  {| role := if eq_str (role_of msg) "user" then "user" else "assistant";
     content := [ {| text := content_of msg |} ] |}.

(** The system prompt a system message becomes. *)
Definition prompt_of (msg : gmap string json) : TextBlock :=
  {| text := content_of msg |}.

(** The characters of a string. *)
Definition chars (s : string) : list ascii := list_ascii_of_string s.

(** The text of the choices of a completion. *)
Definition contents (c : OpenAI.ChatCompletion) : list string :=
  map (fun ch => OpenAI.content (OpenAI.message ch)) (OpenAI.choices c).

(** A Bedrock response with the given content blocks. *)
Definition with_blocks (stop : option string) (u : option TokenUsage)
    (blocks : list ContentBlock) : Bedrock.Response :=
  {| output := Some {| message := Some {| message_content := Some blocks |} |};
     stopReason := stop;
     usage := u |}.

Definition fragment (s : string) : ContentBlock := {| block_text := Some s |}.

(** The name a secret is looked up under. *)
Definition secret_name_of (token : string) : string :=
  SECRET_PREFIX +:+ slice_to 12 token.

(** A secret record of the data model, as stored: a JSON object with the
    four members. *)
Record SecretRecord : Type :=
  { rec_token : string;
    rec_identity : json;
    rec_created_at : json;
    rec_expires_at : string }.

Definition holds_record (w : World) (name : string) (r : SecretRecord) : Prop :=
  exists secret : gmap string json,
    get_secret_value w name = Ok (Some (Dumps (JDict secret))) /\
    secret !! "token" = Some (JStr (rec_token r)) /\
    secret !! "identity" = Some (rec_identity r) /\
    secret !! "created_at" = Some (rec_created_at r) /\
    secret !! "expires_at" = Some (JStr (rec_expires_at r)).

(** The identity [validate_token] builds from a record. *)
Definition identity_of (r : SecretRecord) : Identity :=
  {| identity := rec_identity r;
     created_at := rec_created_at r;
     expires_at := JStr (rec_expires_at r) |}.

(** [s.lower()] on ASCII letters. *)
Definition ascii_lower (c : ascii) : ascii :=
  let n := N_of_ascii c in
  if ((65 <=? n) && (n <=? 90))%N then ascii_of_N (n + 32) else c.

Fixpoint lower (s : string) : string :=
  match s with
  | EmptyString => EmptyString
  | String c s' => String (ascii_lower c) (lower s')
  end.

(** The event with another body. *)
Definition with_body (event : Event) (b : option body_value) : Event :=
  {| ev_headers := ev_headers event; ev_body := b |}.

Definition error_401 : ApiResponse :=
  response 401
    (ErrorEnvelope "Missing or invalid Authorization header" "auth_error").

Definition error_403 : ApiResponse :=
  response 403 (ErrorEnvelope "Invalid or expired token" "auth_error").

Definition error_400_json : ApiResponse :=
  response 400 (ErrorEnvelope "Invalid JSON body" "invalid_request_error").

Definition error_400_messages : ApiResponse :=
  response 400 (ErrorEnvelope "messages is required" "invalid_request_error").

Definition error_502 (code : string) : ApiResponse :=
  response 502 (ErrorEnvelope ("Bedrock error: " +:+ code) "api_error").

(* ===================================================================== *)
(** ** [scripts/generate_token.py] *)
(* ===================================================================== *)

Module TokenGenerator.

(** The exceptions of the script; [SystemExit] is what [sys.exit] raises. *)
Inductive failure : Type :=
  | IndexError
  | ValueError
  | OverflowError
  | ClientError (code : string)
  | SystemExit (status : Z).

Inductive outcome (A : Type) : Type :=
  | Returns (a : A)
  | Raises (e : failure).

Arguments Returns {A} a.
Arguments Raises {A} e.

(** A [timedelta], as its length in microseconds: two timedeltas are equal
    in Python exactly when these are. *)
Record timedelta : Type := { total_microseconds : Z }.

Definition MAX_DELTA_DAYS : Z := 999999999.

Definition US_PER_DAY : Z := 86400000000.

(** The [timedelta] constructor on a whole number of microseconds: the
    normalised number of days must have magnitude at most 999999999. *)
Definition make_timedelta (us : Z) : outcome timedelta :=
  let days := us / US_PER_DAY in
  if ((- MAX_DELTA_DAYS <=? days) && (days <=? MAX_DELTA_DAYS))%Z
  then Returns {| total_microseconds := us |}
  else Raises OverflowError.

(** [timedelta(days=v)], [timedelta(hours=v)], [timedelta(minutes=v)] *)
Definition timedelta_days (v : Z) : outcome timedelta :=
  make_timedelta (v * US_PER_DAY).

Definition timedelta_hours (v : Z) : outcome timedelta :=
  make_timedelta (v * 3600000000).

Definition timedelta_minutes (v : Z) : outcome timedelta :=
  make_timedelta (v * 60000000).

(** The instants of [datetime.min] and [datetime.max] in UTC, in
    microseconds since the epoch. *)
Definition MIN_DATETIME : Z := -62135596800000000.

Definition MAX_DATETIME : Z := 253402300799999999.

(** [now + ttl] on an aware UTC datetime: [OverflowError] when the date
    leaves the years 1 to 9999. *)
Definition datetime_add (now : Z) (ttl : timedelta) : outcome Z :=
  let t := now + total_microseconds ttl in
  if ((MIN_DATETIME <=? t) && (t <=? MAX_DATETIME))%Z then Returns t
  else Raises OverflowError.

(** [s[-1]] and [s[:-1]] *)
Fixpoint last_char (s : string) : option ascii :=
  match s with
  | EmptyString => None
  | String c EmptyString => Some c
  | String _ s' => last_char s'
  end.

Fixpoint all_but_last (s : string) : string :=
  match s with
  | EmptyString => EmptyString
  | String _ EmptyString => EmptyString
  | String c s' => String c (all_but_last s')
  end.

(** [client.create_secret(Name=..., Description=..., SecretString=...,
    Tags=...)] *)
Record CreateSecretRequest : Type :=
  { Name : string;
    Description : string;
    SecretString : json_text;
    Tags : list (string * string) }.

(** The dict [store_token] returns. *)
Record StoredToken : Type :=
  { secret_arn : string;
    secret_name : string;
    stored_expires_at : string }.

(** What [sts.get_caller_identity()] returns. *)
Record CallerIdentity : Type :=
  { Arn : string; Account : string; UserId : string }.

(** The command line, as [argparse] hands it over; [None] for an option
    that was not given. *)
Record Args : Type :=
  { arg_identity : string;
    arg_ttl : option string;
    arg_region : option string;
    arg_profile : option string }.

(** The lines the script prints. *)
Inductive line : Type :=
  | ErrorStoringToken (code : string)        (* stderr *)
  | IamAuthenticationFailed (code : string)  (* stderr *)
  | AuthenticatedAs (arn : string)
  | TokenGeneratedFor (who : string)
  | StoredInSecretsManager (name : string)
  | Expires (at_ : string)
  | Blank
  | Rule
  | BearerToken (token : string)
  | ConfigureYourTool
  | ApiKey (token : string)
  | ApiBase (region : string).

Inductive effect : Type :=
  | StsGetCallerIdentity
  | CreateSecret (region : string) (request : CreateSecretRequest)
  | Print (l : line).

(** The interpreter, the clock and the services the script runs
    against. *)
Record Host : Type :=
  { (** [int(s)] on a string *)
    int : string -> outcome Z;
    (** [datetime.now(timezone.utc)], in microseconds *)
    utcnow : Z;
    (** [.isoformat()] of the aware UTC datetime at an instant *)
    isoformat : Z -> string;
    (** [int(ttl.total_seconds())] *)
    int_total_seconds : timedelta -> Z;
    (** [secrets.token_urlsafe(48)] *)
    token_urlsafe : string;
    (** [sts.get_caller_identity()] *)
    sts_get_caller_identity : outcome CallerIdentity;
    (** [client.create_secret(...)]: the ["ARN"] of the response *)
    create_secret : string -> CreateSecretRequest -> outcome string }.

(** A run of the script: what it did, and how it ended. *)
Definition Run (A : Type) : Type := (list effect * outcome A)%type.

Definition and_then {A B} (m : Run A) (k : A -> Run B) : Run B :=
  match m with
  | (t, Returns a) => let '(t', r) := k a in ((t ++ t')%list, r)
  | (t, Raises e) => (t, Raises e)
  end.

(** Parse TTL string like '30d', '24h', '7d'. *)
Definition parse_ttl (h : Host) (ttl_str : string) : outcome timedelta :=
  match last_char ttl_str with
  | None => Raises IndexError
  | Some c =>
      let unit := lower (String c EmptyString) in
      match int h (all_but_last ttl_str) with
      | Raises e => Raises e
      | Returns value =>
          if String.eqb unit "d" then timedelta_days value
          else if String.eqb unit "h" then timedelta_hours value
          else if String.eqb unit "m" then timedelta_minutes value
          else Raises ValueError
      end
  end.

(** Generate a cryptographically secure bearer token. *)
Definition generate_token (h : Host) : string := token_urlsafe h.

(** The record [store_token] serialises with [json.dumps]. *)
Definition secret_value (h : Host) (token identity : string) (now expires : Z)
    (ttl : timedelta) : json_text :=
  Dumps (JDict (list_to_map
    [ ("token", JStr token);
      ("identity", JStr identity);
      ("created_at", JStr (isoformat h now));
      ("expires_at", JStr (isoformat h expires));
      ("ttl_seconds", JInt (int_total_seconds h ttl)) ])).

(** Store token -> identity mapping in Secrets Manager. *)
Definition store_token (h : Host) (token identity : string) (ttl : timedelta)
    (region : string) : Run StoredToken :=
  let name := SECRET_PREFIX +:+ slice_to 12 token in
  let now := utcnow h in
  match datetime_add now ttl with
  | Raises e => ([], Raises e)
  | Returns expires =>
      let request :=
        {| Name := name;
           Description := "SBC token for " +:+ identity;
           SecretString := secret_value h token identity now expires ttl;
           Tags :=
             [ ("app", "simple-bedrock-connector");
               ("identity", identity);
               ("expires_at", isoformat h expires) ] |} in
      match create_secret h region request with
      | Returns arn =>
          ([CreateSecret region request],
           Returns {| secret_arn := arn;
                      secret_name := name;
                      stored_expires_at := isoformat h expires |})
      | Raises (ClientError code) =>
          ([CreateSecret region request; Print (ErrorStoringToken code)],
           Raises (SystemExit 1))
      | Raises e => ([CreateSecret region request], Raises e)
      end
  end.

(** Verify IAM authentication and return caller identity. *)
Definition get_caller_identity (h : Host) : Run CallerIdentity :=
  match sts_get_caller_identity h with
  | Returns caller => ([StsGetCallerIdentity], Returns caller)
  | Raises (ClientError code) =>
      ([StsGetCallerIdentity; Print (IamAuthenticationFailed code)],
       Raises (SystemExit 1))
  | Raises e => ([StsGetCallerIdentity], Raises e)
  end.

(** [main], from the parsed command line on. *)
Definition main (h : Host) (args : Args) : Run unit :=
  let region := default "us-east-1" (arg_region args) in
  (* Parse TTL *)
  and_then ([], parse_ttl h (default "30d" (arg_ttl args))) (fun ttl =>
  (* Authenticate via IAM *)
  and_then (get_caller_identity h) (fun caller =>
  and_then ([Print (AuthenticatedAs (Arn caller))], Returns tt) (fun _ =>
  (* Generate token *)
  let token := generate_token h in
  (* Store in Secrets Manager *)
  and_then (store_token h token (arg_identity args) ttl region) (fun result =>
  ([ Print (TokenGeneratedFor (arg_identity args));
     Print (StoredInSecretsManager (secret_name result));
     Print (Expires (stored_expires_at result));
     Print Blank;
     Print Rule;
     Print (BearerToken token);
     Print Rule;
     Print Blank;
     Print ConfigureYourTool;
     Print (ApiKey token);
     Print (ApiBase region) ],
   Returns tt))))).

(** A host for the examples: [int] reads an optional sign and decimal
    digits, the clock and the timestamps are those of [Sample]. *)
Definition read_int (s : string) : outcome Z :=
  let digits n s :=
    match Sample.read_digits n 0 s with
    | Some (v, EmptyString) => Some v
    | _ => None
    end in
  match s with
  | EmptyString => Raises ValueError
  | String "-" s' =>
      match s' with
      | EmptyString => Raises ValueError
      | _ => match digits (String.length s') s' with
             | Some v => Returns (- v)
             | None => Raises ValueError
             end
      end
  | _ => match digits (String.length s) s with
         | Some v => Returns v
         | None => Raises ValueError
         end
  end.

(** The timestamp of an instant that falls on a whole second, as
    [isoformat] writes it in UTC. *)
Definition two_digits (n : Z) : string :=
  String (ascii_of_N (Z.to_N (48 + n / 10)))
    (String (ascii_of_N (Z.to_N (48 + n mod 10))) EmptyString).

Definition four_digits (n : Z) : string :=
  two_digits (n / 100) +:+ two_digits (n mod 100).

Definition write_isoformat (t : Z) : string :=
  let s := t / 1000000 in
  let days := s / 86400 in
  let z := days + 719468 in
  let era := z / 146097 in
  let doe := z - era * 146097 in
  let yoe := (doe - doe / 1460 + doe / 36524 - doe / 146096) / 365 in
  let doy := doe - (365 * yoe + yoe / 4 - yoe / 100) in
  let mp := (5 * doy + 2) / 153 in
  let d := doy - (153 * mp + 2) / 5 + 1 in
  let m := if (mp <? 10)%Z then mp + 3 else mp - 9 in
  let y := yoe + era * 400 + (if (m <=? 2)%Z then 1 else 0) in
  let r := s mod 86400 in
  four_digits y +:+ "-" +:+ two_digits m +:+ "-" +:+ two_digits d +:+ "T" +:+
  two_digits (r / 3600) +:+ ":" +:+ two_digits (r mod 3600 / 60) +:+ ":" +:+
  two_digits (r mod 60) +:+ "+00:00".

Definition sample_host (stored : outcome string)
    (caller : outcome CallerIdentity) : Host :=
  {| int := read_int;
     utcnow := Sample.noon;
     isoformat := write_isoformat;
     int_total_seconds := fun ttl => Z.quot (total_microseconds ttl) 1000000;
     token_urlsafe := Sample.token;
     sts_get_caller_identity := caller;
     create_secret := fun _ _ => stored |}.

Definition sample_caller : CallerIdentity :=
  {| Arn := "arn:aws:iam::123456789012:user/logan";
     Account := "123456789012";
     UserId := "AIDAEXAMPLE" |}.

End TokenGenerator.

(* ===================================================================== *)
(** ** Running a computation *)
(* ===================================================================== *)

Section Running.

Context {A B : Type}.

Lemma bind_ret (a : A) (k : A -> M B) : bind (ret a) k = k a.
Proof. unfold bind, ret. now destruct (k a). Qed.

Lemma bind_lift_Ok (a : A) (k : A -> M B) : bind (lift (Ok a)) k = k a.
Proof. apply bind_ret. Qed.

Lemma bind_lift_Raise (e : exn) (k : A -> M B) :
  bind (lift (Raise e)) k = ([], Raise e).
Proof. reflexivity. Qed.

Lemma bind_perform (e : effect) (k : unit -> M B) :
  bind (perform e) k = (e :: fst (k tt), snd (k tt)).
Proof. unfold bind, perform. now destruct (k tt). Qed.

End Running.

(** Case analysis on the next value a computation inspects: the innermost
    scrutinee of the goal, or of the hypothesis [H]. *)
Ltac case_goal :=
  match goal with
  | |- context [match ?x with _ => _ end] =>
      lazymatch x with
      | context [match _ with _ => _ end] => fail
      | _ => destruct x eqn:?; simpl
      end
  end.

Ltac next_case H :=
  match type of H with
  | context [match ?x with _ => _ end] =>
      lazymatch x with
      | context [match _ with _ => _ end] => fail
      | _ => destruct x eqn:?; simpl in H; try discriminate H
      end
  end.

(* ===================================================================== *)
(** ** Model resolution *)
(* ===================================================================== *)

Section ModelResolver.

(** ["." in s] holds exactly when one of the characters of [s] is a dot. *)
Lemma str_in_dot (s : string) :
  str_in "." s = true <-> In "."%char (chars s).
Proof.
  induction s as [|c s IH]; cbn -[ascii_dec].
  - split; [discriminate | tauto].
  - destruct (ascii_dec "." c) as [<-|Hne]; cbn -[ascii_dec].
    + split; [intros _; now left | intros _; now destruct s].
    + rewrite IH. unfold chars.
      split; [tauto | intros [Heq|Hin]; [congruence | assumption] ].
Qed.

(** C4. [resolve_model] is defined on every name and follows the three
    tiers: a name of the alias table resolves to its table value; a name
    outside the table that contains the separator ["."] resolves to
    itself; every other name resolves to the one default identifier. *)
Theorem resolve_model_three_tiers (name : string) :
  (forall backend, MODEL_MAP !! name = Some backend ->
     resolve_model name = backend) /\
  (MODEL_MAP !! name = None -> In "."%char (chars name) ->
     resolve_model name = name) /\
  (MODEL_MAP !! name = None -> ~ In "."%char (chars name) ->
     resolve_model name = DEFAULT_MODEL).
Proof.
  unfold resolve_model. repeat split.
  - intros backend ->. reflexivity.
  - intros -> Hdot. apply str_in_dot in Hdot. simpl. now rewrite Hdot.
  - intros -> Hdot. simpl.
    destruct (str_in "." name) eqn:E; [|reflexivity].
    apply str_in_dot in E. contradiction.
Qed.

(** The three tiers, on an alias, on a qualified identifier and on an
    unknown name. *)
Lemma resolve_model_three_tiers_witness :
  resolve_model "gpt-3.5-turbo" = "anthropic.claude-3-5-haiku-20241022-v1:0" /\
  resolve_model "amazon.nova-pro-v1:0" = "amazon.nova-pro-v1:0" /\
  resolve_model "unknown-model" = DEFAULT_MODEL.
Proof.
  split; [|split].
  - apply (resolve_model_three_tiers "gpt-3.5-turbo"). vm_compute. reflexivity.
  - apply (resolve_model_three_tiers "amazon.nova-pro-v1:0").
    + vm_compute. reflexivity.
    + simpl. tauto.
  - apply (resolve_model_three_tiers "unknown-model").
    + vm_compute. reflexivity.
    + simpl. intros H.
      repeat (destruct H as [H|H]; [discriminate H|]). exact H.
Defined.

End ModelResolver.

(* ===================================================================== *)
(** ** Message translation *)
(* ===================================================================== *)

Section MessageTranslator.

(** The loop, started from any accumulators, appends to them: the turns
    of the non-system messages and the prompts of the system messages,
    each in the order of the input. *)
Lemma convert_messages_app (msgs : list (gmap string json)) :
  forall bedrock_messages system_prompts,
    convert_messages (map JDict msgs) bedrock_messages system_prompts =
    Ok (bedrock_messages ++
          map turn_of (List.filter (fun m => negb (is_system m)) msgs),
        system_prompts ++ map prompt_of (List.filter is_system msgs))%list.
Proof.
  induction msgs as [|msg msgs IH]; intros bm sp; simpl.
  - now rewrite !app_nil_r.
  - fold (role_of msg). fold (content_of msg). fold (is_system msg).
    destruct (is_system msg); simpl; rewrite IH.
    + now rewrite <- app_assoc.
    + now rewrite <- app_assoc.
Qed.

(** A message that is no JSON object ends the loop with the
    [AttributeError] of its [.get]. *)
Lemma convert_messages_not_dict (before : list (gmap string json))
    (msg : json) (rest : list json) bedrock_messages system_prompts :
  as_dict msg = Raise AttributeError ->
  convert_messages (map JDict before ++ msg :: rest)
    bedrock_messages system_prompts = Raise AttributeError.
Proof.
  intros Hmsg. revert bedrock_messages system_prompts.
  induction before as [|m before IH]; intros bm sp; simpl.
  - now rewrite Hmsg.
  - destruct (eq_str _ "system"); apply IH.
Qed.


Lemma existsb_filter_nil {A} (p : A -> bool) (l : list A) :
  existsb p l = false <-> List.filter p l = [].
Proof.
  induction l as [|a l IH]; simpl; [tauto|].
  destruct (p a); simpl; [split; discriminate | exact IH].
Qed.

(** [invoke_bedrock] on a list of messages: one call of the backend,
    with the converted messages. *)
Lemma invoke_bedrock_messages (w : World) (model_id : string)
    (msgs : list (gmap string json)) (params : gmap string json) :
  let kwargs :=
    converse_kwargs model_id
      (map turn_of (List.filter (fun m => negb (is_system m)) msgs))
      (map prompt_of (List.filter is_system msgs)) params in
  invoke_bedrock w model_id (JList (map JDict msgs)) params =
    ([Converse kwargs], converse w kwargs).
Proof.
  unfold invoke_bedrock. simpl.
  rewrite convert_messages_app. simpl.
  destruct (converse w _); reflexivity.
Qed.

(** C8. For every list of messages the backend is called once; the call
    has no [system] argument when no message has role ["system"], and has
    one, the non-empty list of the system prompts, when some message has
    role ["system"], whatever its content. *)
Theorem invoke_bedrock_system_key (w : World) (model_id : string)
    (msgs : list (gmap string json)) (params : gmap string json) :
  exists kwargs,
    fst (invoke_bedrock w model_id (JList (map JDict msgs)) params)
      = [Converse kwargs] /\
    (existsb is_system msgs = false -> system kwargs = None) /\
    (existsb is_system msgs = true ->
       exists prompts, system kwargs = Some prompts /\ prompts <> [] /\
         prompts = map prompt_of (List.filter is_system msgs)).
Proof.
  eexists. rewrite invoke_bedrock_messages. split; [reflexivity|].
  simpl. split.
  - intros Hnone. apply existsb_filter_nil in Hnone. now rewrite Hnone.
  - intros Hsome.
    destruct (List.filter is_system msgs) as [|m sys] eqn:E.
    + apply existsb_filter_nil in E. congruence.
    + simpl. eexists. split; [reflexivity|]. split; [discriminate|reflexivity].
Qed.

End MessageTranslator.

(* ===================================================================== *)
(** ** Response translation *)
(* ===================================================================== *)

Section ResponseTranslator.

Lemma chars_append (a b : string) : chars (a +:+ b) = (chars a ++ chars b)%list.
Proof. induction a as [|c a IH]; simpl; [reflexivity | now rewrite <- IH]. Qed.

(** The characters of ["".join(parts)] are those of the parts, in order. *)
Lemma chars_join_empty (parts : list string) :
  chars (join "" parts) = List.concat (map chars parts).
Proof.
  unfold join. induction parts as [|p parts IH]; [reflexivity|].
  destruct parts as [|q parts].
  - simpl. now rewrite app_nil_r.
  - change (String.concat "" (p :: q :: parts))
      with (p +:+ String.concat "" (q :: parts)).
    rewrite chars_append, IH. reflexivity.
Qed.

Lemma chars_inj (a b : string) : chars a = chars b -> a = b.
Proof.
  intros H. rewrite <- (string_of_list_ascii_of_string a),
    <- (string_of_list_ascii_of_string b). unfold chars in H. now rewrite H.
Qed.

Lemma join_empty_split (before after : list string) (a b : string) :
  join "" (before ++ (a +:+ b) :: after) = join "" (before ++ a :: b :: after).
Proof.
  apply chars_inj. rewrite !chars_join_empty, !map_app, !concat_app.
  simpl. rewrite chars_append. now rewrite <- app_assoc.
Qed.

Lemma fragment_texts (fragments : list string) :
  map text_of_block (map fragment fragments) = fragments.
Proof. induction fragments as [|f l IH]; simpl; [|rewrite IH]; reflexivity. Qed.

Lemma contents_with_blocks (w : World) (model_name : string)
    (stop : option string) (u : option TokenUsage) (fragments : list string) :
  contents (to_openai_response w
              (with_blocks stop u (map fragment fragments)) model_name)
  = [join "" fragments].
Proof.
  unfold contents, to_openai_response, with_blocks.
  cbn [output message message_content from_option id].
  now rewrite fragment_texts.
Qed.

(** C6. The completion has one choice; the characters of its content are
    the characters of the text fragments of the content blocks, in order
    and with nothing between them; with no block the content is the empty
    string; and a fragment split in two adjacent fragments gives the same
    completion. *)
Theorem to_openai_response_content (w : World) (model_name : string)
    (stop : option string) (u : option TokenUsage) :
  (forall fragments : list string,
     exists content,
       contents (to_openai_response w
                   (with_blocks stop u (map fragment fragments)) model_name)
         = [content] /\
       chars content = List.concat (map chars fragments)) /\
  contents (to_openai_response w (with_blocks stop u []) model_name) = [""] /\
  (forall (before after : list string) (a b : string),
     to_openai_response w
       (with_blocks stop u (map fragment (before ++ (a +:+ b) :: after)))
       model_name =
     to_openai_response w
       (with_blocks stop u (map fragment (before ++ a :: b :: after)))
       model_name).
Proof.
  split; [|split].
  - intros fragments. exists (join "" fragments).
    split; [apply contents_with_blocks | apply chars_join_empty].
  - reflexivity.
  - intros before after a b. unfold to_openai_response, with_blocks.
    cbn [output message message_content from_option id stopReason usage].
    now rewrite !fragment_texts, join_empty_split.
Qed.

(** A block without text contributes the empty string, and a response
    without output, message or content has the empty content. *)
Lemma to_openai_response_no_text (w : World) (model_name : string)
    (stop : option string) (u : option TokenUsage) (fragments : list string) :
  contents (to_openai_response w
              (with_blocks stop u
                 ({| block_text := None |} :: map fragment fragments))
              model_name)
  = contents (to_openai_response w
                (with_blocks stop u (map fragment fragments)) model_name) /\
  contents (to_openai_response w
              {| output := None; stopReason := stop; usage := u |} model_name)
  = [""].
Proof.
  split; [|reflexivity].
  unfold contents, to_openai_response. simpl.
  destruct (map _ (map fragment fragments)); reflexivity.
Qed.

(** C7. In every completion [total_tokens] is the sum of
    [prompt_tokens] and [completion_tokens]; these are the backend's
    [inputTokens] and [outputTokens], 0 for an absent one; the backend's
    own total has no influence. *)
Theorem to_openai_response_usage (w : World) (model_name : string)
    (r : Bedrock.Response) :
  let u := OpenAI.usage (to_openai_response w r model_name) in
  OpenAI.total_tokens u = OpenAI.prompt_tokens u + OpenAI.completion_tokens u /\
  OpenAI.prompt_tokens u = default 0 (u' ← usage r; inputTokens u') /\
  OpenAI.completion_tokens u = default 0 (u' ← usage r; outputTokens u') /\
  (forall i o t t',
     to_openai_response w
       {| output := output r; stopReason := stopReason r;
          usage := Some {| inputTokens := i; outputTokens := o;
                           totalTokens := t |} |} model_name =
     to_openai_response w
       {| output := output r; stopReason := stopReason r;
          usage := Some {| inputTokens := i; outputTokens := o;
                           totalTokens := t' |} |} model_name) /\
  (forall t,
     OpenAI.usage
       (to_openai_response w
          {| output := output r; stopReason := stopReason r;
             usage := Some {| inputTokens := None; outputTokens := None;
                              totalTokens := t |} |} model_name) =
     {| OpenAI.prompt_tokens := 0; OpenAI.completion_tokens := 0;
        OpenAI.total_tokens := 0 |}) /\
  OpenAI.usage
    (to_openai_response w
       {| output := output r; stopReason := stopReason r; usage := None |}
       model_name) =
  {| OpenAI.prompt_tokens := 0; OpenAI.completion_tokens := 0;
     OpenAI.total_tokens := 0 |}.
Proof.
  simpl. repeat split.
  - destruct (usage r) as [u'|]; reflexivity.
  - destruct (usage r) as [u'|]; reflexivity.
Qed.

End ResponseTranslator.

(* ===================================================================== *)
(** ** Token validation *)
(* ===================================================================== *)

Section IdentityValidator.

Local Arguments eq_str : simpl never.

Ltac unfold_validate :=
  unfold validate_token, except_ClientError, bind, lift, perform, ret,
    secret_string, json_loads, as_dict, dict_item, dict_get,
    datetime_fromisoformat, datetime_gt.

Ltac unfold_validate_in H :=
  unfold validate_token, except_ClientError, bind, lift, perform, ret,
    secret_string, json_loads, as_dict, dict_item, dict_get,
    datetime_fromisoformat, datetime_gt in H.

Lemma eq_str_true (v : json) (s : string) : eq_str v s = true <-> v = JStr s.
Proof.
  destruct v; unfold eq_str; try (split; [discriminate | intros; discriminate]).
  rewrite String.eqb_eq. split; [now intros -> | now intros [= ->] ].
Qed.

(** What [validate_token] does with a stored JSON object whose token
    matches and whose expiry reads as an aware timestamp. *)
Lemma validate_token_record (w : World) (token : string) (r : SecretRecord)
    (t : Z) :
  holds_record w (secret_name_of token) r ->
  rec_token r = token ->
  fromisoformat w (rec_expires_at r) = Some (Aware t) ->
  validate_token w token =
    if (t <? utcnow w)%Z
    then ([GetSecretValue (secret_name_of token);
           Log (TokenExpired (rec_identity r))], Ok None)
    else ([GetSecretValue (secret_name_of token)], Ok (Some (identity_of r))).
Proof.
  intros (secret & Hget & Htok & Hid & Hcr & Hexp) <- Hiso.
  unfold_validate. fold (secret_name_of (rec_token r)).
  rewrite Hget. simpl. rewrite Htok. simpl. unfold eq_str. rewrite String.eqb_refl. simpl.
  rewrite Hexp. simpl. rewrite Hiso. simpl.
  destruct (t <? utcnow w)%Z; simpl.
  - now rewrite Hid.
  - rewrite Hid, Hcr. reflexivity.
Qed.

(** A service error of the secret store is a rejection. *)
Lemma validate_token_ClientError (w : World) (token code : string) :
  get_secret_value w (secret_name_of token) = Raise (ClientError code) ->
  validate_token w token = ([GetSecretValue (secret_name_of token)], Ok None).
Proof.
  intros Hget. unfold_validate. fold (secret_name_of token).
  now rewrite Hget.
Qed.

(** A stored text that is no JSON ends the validation with the decoder's
    exception: only [ClientError] is caught. *)
Lemma validate_token_not_json (w : World) (token raw : string) :
  get_secret_value w (secret_name_of token) = Ok (Some (NotJson raw)) ->
  validate_token w token =
    ([GetSecretValue (secret_name_of token)], Raise JSONDecodeError).
Proof.
  intros Hget. unfold_validate. fold (secret_name_of token).
  now rewrite Hget.
Qed.

(** A stored object whose token member is not the presented token is a
    rejection, whatever else it holds. *)
Lemma validate_token_mismatch (w : World) (token : string)
    (secret : gmap string json) :
  get_secret_value w (secret_name_of token) = Ok (Some (Dumps (JDict secret))) ->
  secret !! "token" <> Some (JStr token) ->
  validate_token w token = ([GetSecretValue (secret_name_of token)], Ok None).
Proof.
  intros Hget Hne. unfold_validate. fold (secret_name_of token).
  rewrite Hget. simpl.
  destruct (eq_str (default JNull (secret !! "token")) token) eqn:E; [|reflexivity].
  apply eq_str_true in E. destruct (secret !! "token"); simpl in E; congruence.
Qed.

(** C1. [validate_token] returns an identity exactly when the store holds,
    under the name derived from the token, a record whose token is the
    presented one and whose expiry is not before now; the identity is the
    record's.  An expiry equal to now is accepted, an earlier one is
    rejected, and so is a record found under the name whose token is not
    the presented one. *)
Theorem validate_token_iff (w : World) (token : string) :
  (forall idn,
     snd (validate_token w token) = Ok (Some idn) <->
     exists r t,
       holds_record w (secret_name_of token) r /\
       rec_token r = token /\
       fromisoformat w (rec_expires_at r) = Some (Aware t) /\
       (utcnow w <= t)%Z /\
       idn = identity_of r) /\
  (forall r,
     holds_record w (secret_name_of token) r ->
     rec_token r = token ->
     fromisoformat w (rec_expires_at r) = Some (Aware (utcnow w)) ->
     snd (validate_token w token) = Ok (Some (identity_of r))) /\
  (forall r t,
     holds_record w (secret_name_of token) r ->
     rec_token r = token ->
     fromisoformat w (rec_expires_at r) = Some (Aware t) ->
     (t < utcnow w)%Z ->
     snd (validate_token w token) = Ok None) /\
  (forall secret other,
     get_secret_value w (secret_name_of token)
       = Ok (Some (Dumps (JDict secret))) ->
     secret !! "token" = Some (JStr other) ->
     other <> token ->
     snd (validate_token w token) = Ok None).
Proof.
  split; [|split; [|split] ].
  - intros idn. split.
    + intros H. unfold_validate_in H. fold (secret_name_of token) in H.
      repeat next_case H.
      match goal with
      | E : negb _ = false |- _ => apply negb_false_iff, eq_str_true in E
      end.
      injection H as <-.
      match goal with
      | Hs : _ !! "expires_at" = Some (JStr ?s),
        Hi : _ !! "identity" = Some ?i,
        Hc : _ !! "created_at" = Some ?c,
        Hf : fromisoformat w ?s = Some (Aware ?t) |- _ =>
          exists {| rec_token := token; rec_identity := i;
                    rec_created_at := c; rec_expires_at := s |}, t
      end.
      split; [|split; [reflexivity|split; [assumption|split] ] ].
      * eexists. split; [eassumption|]. simpl.
        match goal with
        | E : default JNull (?d !! "token") = _ |- _ =>
            destruct (d !! "token") eqn:?; simpl in E; [subst|discriminate]
        end.
        repeat split; assumption.
      * match goal with E : (_ <? _)%Z = false |- _ => apply Z.ltb_ge in E end.
        assumption.
      * reflexivity.
    + intros (r & t & Hrec & Htok & Hiso & Hle & ->).
      rewrite (validate_token_record w token r t Hrec Htok Hiso).
      apply Z.ltb_ge in Hle. now rewrite Hle.
  - intros r Hrec Htok Hiso.
    rewrite (validate_token_record w token r _ Hrec Htok Hiso).
    now rewrite Z.ltb_irrefl.
  - intros r t Hrec Htok Hiso Hlt.
    rewrite (validate_token_record w token r t Hrec Htok Hiso).
    apply Z.ltb_lt in Hlt. now rewrite Hlt.
  - intros secret other Hget Htok Hne.
    rewrite (validate_token_mismatch w token secret Hget); [reflexivity|].
    rewrite Htok. congruence.
Qed.

End IdentityValidator.

(* ===================================================================== *)
(** ** The request pipeline *)
(* ===================================================================== *)

Section RequestPipeline.

Local Arguments eq_str : simpl never.
Local Arguments resolve_model : simpl never.
Local Arguments to_openai_response : simpl never.
Local Arguments converse_kwargs : simpl never.
Local Arguments inference_params : simpl never.
Local Arguments truthy : simpl never.

Lemma bearer_token_with_body (ev : Event) (b : option body_value) :
  bearer_token (with_body ev b) = bearer_token ev.
Proof. reflexivity. Qed.

(** Token validation talks to the secret store and the logger only. *)
Lemma validate_token_no_converse (w : World) (token : string)
    (kwargs : Kwargs) :
  ~ In (Converse kwargs) (fst (validate_token w token)).
Proof.
  unfold validate_token, except_ClientError, bind, lift, perform, ret,
    secret_string, json_loads, as_dict, dict_item, dict_get,
    datetime_fromisoformat, datetime_gt.
  simpl. repeat case_goal; simpl; intuition discriminate.
Qed.

(** Stage 1: without a bearer token the answer is 401, and nothing else
    happens. *)
Lemma handler_unauthenticated (w : World) (ev : Event) :
  bearer_token ev = None -> handler w ev = ([], Ok error_401).
Proof. intros H. unfold handler. now rewrite H. Qed.

(** Stage 2: a rejected token is answered with 403 whatever the body is;
    the only effects are those of the validation. *)
Lemma handler_forbidden (w : World) (ev : Event) (token : string)
    (t : list effect) :
  bearer_token ev = Some token ->
  validate_token w token = (t, Ok None) ->
  forall b, handler w (with_body ev b) = (t, Ok error_403) /\
            forall kwargs, ~ In (Converse kwargs) t.
Proof.
  intros Hb Hv b. split.
  - unfold handler. rewrite bearer_token_with_body, Hb.
    unfold bind. rewrite Hv. simpl. now rewrite app_nil_r.
  - intros kwargs. pose proof (validate_token_no_converse w token kwargs) as H.
    now rewrite Hv in H.
Qed.

(** An exception of the validation leaves the handler as it is. *)
Lemma handler_validation_raises (w : World) (ev : Event) (token : string)
    (t : list effect) (e : exn) :
  bearer_token ev = Some token ->
  validate_token w token = (t, Raise e) ->
  handler w ev = (t, Raise e).
Proof.
  intros Hb Hv. unfold handler. rewrite Hb. unfold bind. now rewrite Hv.
Qed.

(** After a successful validation the handler goes on with the body. *)
Lemma handler_authenticated (w : World) (ev : Event) (token : string)
    (t : list effect) (idn : Identity) :
  bearer_token ev = Some token ->
  validate_token w token = (t, Ok (Some idn)) ->
  handler w ev =
    match loads_body ev with
    | Raise JSONDecodeError => (t, Ok error_400_json)
    | Raise e => (t, Raise e)
    | Ok body =>
        (t ++ fst (chat_completion w idn body), snd (chat_completion w idn body))%list
    end.
Proof.
  intros Hb Hv. unfold handler. rewrite Hb. unfold bind. rewrite Hv.
  destruct (loads_body ev) as [body|e].
  - now destruct (chat_completion w idn body).
  - destruct e; simpl; now rewrite app_nil_r.
Qed.

(** Stage 4: a body without messages, or with messages that count as
    false, is answered with 400. *)
Lemma chat_completion_no_messages (w : World) (idn : Identity)
    (d : gmap string json) :
  truthy (dict_get_or d "messages" (JList [])) = false ->
  chat_completion w idn (JDict d) = ([], Ok error_400_messages).
Proof.
  intros H. unfold chat_completion, bind, lift. simpl. now rewrite H.
Qed.

(** A body that is valid JSON but no object ends the handler with the
    [AttributeError] of [body.get]. *)
Lemma chat_completion_not_object (w : World) (idn : Identity) (body : json) :
  as_dict body = Raise AttributeError ->
  chat_completion w idn body = ([], Raise AttributeError).
Proof. intros H. unfold chat_completion. now rewrite H. Qed.

Lemma handler_not_object (w : World) (ev : Event) (token : string)
    (t : list effect) (idn : Identity) (body : json) :
  bearer_token ev = Some token ->
  validate_token w token = (t, Ok (Some idn)) ->
  loads_body ev = Ok body ->
  as_dict body = Raise AttributeError ->
  handler w ev = (t, Raise AttributeError).
Proof.
  intros Hb Hv Hl Hbody.
  rewrite (handler_authenticated w ev token t idn Hb Hv), Hl.
  rewrite (chat_completion_not_object w idn body Hbody). simpl.
  now rewrite app_nil_r.
Qed.

(** Stages 5 to 7 on a body whose model is a string and whose messages
    are a non-empty list of JSON objects: one call of the backend, then
    200 with the converted response, 502 for a [ClientError], or the
    backend's other exception. *)
Lemma chat_completion_invokes (w : World) (idn : Identity)
    (d : gmap string json) (model : string) (msgs : list (gmap string json)) :
  dict_get_or d "model" (JStr "gpt-4o") = JStr model ->
  d !! "messages" = Some (JList (map JDict msgs)) ->
  msgs <> [] ->
  let kwargs :=
    converse_kwargs (resolve_model model)
      (map turn_of (List.filter (fun m => negb (is_system m)) msgs))
      (map prompt_of (List.filter is_system msgs))
      (inference_params d) in
  let request :=
    Log (LogRequest (identity idn) model (resolve_model model) (length msgs)) in
  chat_completion w idn (JDict d) =
    match converse w kwargs with
    | Ok r =>
        let result := to_openai_response w r model in
        ([request; Converse kwargs;
          Log (LogResponse (identity idn) model (OpenAI.usage result)
                 (_map_stop_reason (default "end_turn" (stopReason r))))],
         Ok (response 200 (Completion result)))
    | Raise (ClientError code) =>
        ([request; Converse kwargs; Log (LogBedrockError code)],
         Ok (error_502 code))
    | Raise e => ([request; Converse kwargs], Raise e)
    end.
Proof.
  intros Hmodel Hmsgs Hne kwargs request.
  assert (Hget : dict_get_or d "messages" (JList []) = JList (map JDict msgs))
    by (unfold dict_get_or; now rewrite Hmsgs).
  unfold chat_completion. cbn [as_dict]. rewrite bind_lift_Ok.
  cbv zeta. rewrite Hmodel, Hget.
  replace (truthy (JList (map JDict msgs))) with true
    by (destruct msgs; [contradiction | reflexivity]).
  cbn [negb resolve_model_json py_len]. rewrite !bind_lift_Ok.
  rewrite bind_perform, length_map, invoke_bedrock_messages.
  fold kwargs. fold request.
  destruct (converse w kwargs) as [r|e]; [reflexivity|].
  destruct e; reflexivity.
Qed.

Lemma handler_rejected (w : World) (ev : Event) (token : string)
    (t : list effect) :
  bearer_token ev = Some token ->
  validate_token w token = (t, Ok None) ->
  handler w ev = (t, Ok error_403).
Proof.
  intros Hb Hv. unfold handler. rewrite Hb. unfold bind. rewrite Hv.
  simpl. now rewrite app_nil_r.
Qed.

(** [invoke_bedrock] either raises before calling the backend, or calls
    it once with the model it was given. *)
Lemma invoke_bedrock_shape (w : World) (model_id : string) (msgs : json)
    (params : gmap string json) :
  (exists e, invoke_bedrock w model_id msgs params = ([], Raise e)) \/
  (exists turns prompts,
     let kwargs := converse_kwargs model_id turns prompts params in
     invoke_bedrock w model_id msgs params
       = ([Converse kwargs], converse w kwargs)).
Proof.
  unfold invoke_bedrock.
  destruct (py_iter msgs) as [items|e];
    [rewrite bind_lift_Ok | left; now exists e].
  destruct (convert_messages items [] []) as [ [turns prompts]|e];
    [rewrite bind_lift_Ok | left; now exists e].
  right. exists turns, prompts. cbv zeta. rewrite bind_perform.
  now destruct (converse w _).
Qed.

(** What the second half of the handler can do: every backend call it
    makes is for the resolved model, and every answer it returns is the
    400 for missing messages, a 502, or the 200 with a completion for
    the requested model. *)
Lemma chat_completion_shape (w : World) (idn : Identity) (body : json) :
  (forall kwargs,
     In (Converse kwargs) (fst (chat_completion w idn body)) ->
     exists d model,
       body = JDict d /\
       dict_get_or d "model" (JStr "gpt-4o") = JStr model /\
       modelId kwargs = resolve_model model) /\
  (forall r,
     snd (chat_completion w idn body) = Ok r ->
     r = error_400_messages \/
     (exists code, r = error_502 code) \/
     (exists d model resp,
        body = JDict d /\
        dict_get_or d "model" (JStr "gpt-4o") = JStr model /\
        r = response 200 (Completion (to_openai_response w resp model)))).
Proof.
  unfold chat_completion.
  destruct body as [ | | | | | |d];
    try (cbn [as_dict]; rewrite bind_lift_Raise; split;
         [intros ? [] | discriminate]).
  cbn [as_dict]. rewrite bind_lift_Ok. cbv zeta.
  destruct (truthy (dict_get_or d "messages" (JList []))); cbn [negb];
    [|split; [intros ? [] | intros r [= <-]; now left] ].
  destruct (dict_get_or d "model" (JStr "gpt-4o")) as [ | | | |model| | ] eqn:Hmodel;
    try (cbn [resolve_model_json]; rewrite bind_lift_Raise; split;
         [intros ? [] | discriminate]).
  cbn [resolve_model_json]. rewrite bind_lift_Ok.
  destruct (py_len (dict_get_or d "messages" (JList []))) as [n|e];
    [rewrite bind_lift_Ok | rewrite bind_lift_Raise; split;
                            [intros ? [] | discriminate] ].
  rewrite bind_perform.
  destruct (invoke_bedrock_shape w (resolve_model model)
              (dict_get_or d "messages" (JList [])) (inference_params d))
    as [ [e ->] | (turns & prompts & ->) ].
  - destruct e; simpl; (split; [intros kw [H|H]; [discriminate H|]; try (destruct H as [H|H]; [discriminate H|]); destruct H | ]).
    all: try discriminate.
    intros r [= <-]. right; left. now eexists.
  - set (kwargs := converse_kwargs _ _ _ _).
    assert (Hkw : modelId kwargs = resolve_model model) by reflexivity.
    clearbody kwargs.
    destruct (converse w kwargs) as [resp|e]; [|destruct e]; simpl.
    all: split;
      [ intros kw H;
        repeat (destruct H as [H|H];
                [try discriminate H; injection H as <-;
                 now exists d, model|]);
        destruct H
      | try discriminate ].
    + intros r [= <-]. right; right. now exists d, model, resp.
    + intros r [= <-]. right; left. now eexists.
Qed.


(** The stages of the pipeline, in order, each with the answer of its
    failure: no bearer token, 401 and no effect; a rejected token, 403
    whatever the body, and no call of the backend; a body that is no
    JSON, 400; messages missing or empty, 400; a service error of the
    backend, 502 after the one call. *)
Lemma handler_stages (w : World) (ev : Event) :
  (bearer_token ev = None -> handler w ev = ([], Ok error_401)) /\
  (forall token t,
     bearer_token ev = Some token ->
     validate_token w token = (t, Ok None) ->
     forall b, handler w (with_body ev b) = (t, Ok error_403) /\
               forall kwargs, ~ In (Converse kwargs) t) /\
  (forall token t idn,
     bearer_token ev = Some token ->
     validate_token w token = (t, Ok (Some idn)) ->
     (loads_body ev = Raise JSONDecodeError ->
      handler w ev = (t, Ok error_400_json)) /\
     (forall d,
        loads_body ev = Ok (JDict d) ->
        truthy (dict_get_or d "messages" (JList [])) = false ->
        handler w ev = (t, Ok error_400_messages)) /\
     (forall d model msgs,
        loads_body ev = Ok (JDict d) ->
        dict_get_or d "model" (JStr "gpt-4o") = JStr model ->
        d !! "messages" = Some (JList (map JDict msgs)) ->
        msgs <> [] ->
        exists kwargs,
          forall code,
            converse w kwargs = Raise (ClientError code) ->
            handler w ev =
              (t ++ [Log (LogRequest (identity idn) model
                            (resolve_model model) (length msgs));
                     Converse kwargs;
                     Log (LogBedrockError code)],
               Ok (error_502 code)))%list).
Proof.
  split; [apply handler_unauthenticated|].
  split; [intros token t Hb Hv b; now apply (handler_forbidden w ev token t)|].
  intros token t idn Hb Hv.
  rewrite (handler_authenticated w ev token t idn Hb Hv).
  split; [|split].
  - now intros ->.
  - intros d -> Hfalse. rewrite chat_completion_no_messages by assumption.
    simpl. now rewrite app_nil_r.
  - intros d model msgs -> Hmodel Hmsgs Hne.
    rewrite (chat_completion_invokes w idn d model msgs Hmodel Hmsgs Hne).
    eexists. intros code Hcode. rewrite Hcode. reflexivity.
Qed.

End RequestPipeline.

(* ===================================================================== *)
(** ** Credential extraction *)
(* ===================================================================== *)

Section Credentials.


Local Arguments eq_str : simpl never.
Local Arguments resolve_model : simpl never.
Local Arguments to_openai_response : simpl never.
Local Arguments converse_kwargs : simpl never.
Local Arguments inference_params : simpl never.
Local Arguments truthy : simpl never.
Local Arguments startswith : simpl never.
Local Arguments slice_from : simpl never.






End Credentials.

(* ===================================================================== *)
(** ** The default model *)
(* ===================================================================== *)

Section DefaultModel.


Local Arguments resolve_model : simpl never.
Local Arguments to_openai_response : simpl never.
Local Arguments converse_kwargs : simpl never.
Local Arguments chat_completion : simpl never.

Lemma dict_get_or_insert_ne (d : gmap string json) (k k' : string)
    (v dflt : json) :
  k <> k' -> dict_get_or (<[k := v]> d) k' dflt = dict_get_or d k' dflt.
Proof. intros H. unfold dict_get_or. now rewrite lookup_insert_ne. Qed.

Lemma inference_params_insert_model (d : gmap string json) (v : json) :
  inference_params (<["model" := v]> d) = inference_params d.
Proof.
  unfold inference_params. now rewrite !dict_get_or_insert_ne.
Qed.

Lemma chat_completion_default_model (w : World) (idn : Identity)
    (d : gmap string json) :
  d !! "model" = None ->
  chat_completion w idn (JDict (<["model" := JStr "gpt-4o"]> d))
    = chat_completion w idn (JDict d).
Proof.
  intros Hnone. unfold chat_completion. cbn [as_dict].
  rewrite !bind_lift_Ok. cbv zeta.
  rewrite inference_params_insert_model.
  rewrite (dict_get_or_insert_ne d "model" "messages") by discriminate.
  assert (H1 : dict_get_or (<["model" := JStr "gpt-4o"]> d) "model"
                 (JStr "gpt-4o") = JStr "gpt-4o")
    by (unfold dict_get_or; now rewrite lookup_insert_eq).
  assert (H2 : dict_get_or d "model" (JStr "gpt-4o") = JStr "gpt-4o")
    by (unfold dict_get_or; now rewrite Hnone).
  now rewrite H1, H2.
Qed.

Lemma resolve_model_gpt_4o :
  resolve_model "gpt-4o" = "anthropic.claude-4-sonnet-20250514-v1:0".
Proof. vm_compute. reflexivity. Qed.

Lemma handler_same_after_parse (w : World) (ev ev' : Event) (body body' : json) :
  bearer_token ev' = bearer_token ev ->
  loads_body ev = Ok body ->
  loads_body ev' = Ok body' ->
  (forall idn, chat_completion w idn body' = chat_completion w idn body) ->
  handler w ev' = handler w ev.
Proof.
  intros Hb Hl Hl' Hsame. unfold handler. rewrite Hb, Hl, Hl'.
  destruct (bearer_token ev) as [token|]; [|reflexivity].
  unfold bind. destruct (validate_token w token) as [t [ [idn|] | e] ];
    try reflexivity.
  now rewrite Hsame.
Qed.

(** C10. A request whose body has no ["model"] member is handled exactly
    as the same request asking for ["gpt-4o"]: every call of the backend
    it leads to names the default Claude Sonnet identifier, and every
    completion it is answered with has ["gpt-4o"] as its model; when the
    request is authenticated and carries a non-empty list of messages, the
    backend is called, and its response is returned in a 200 whose model
    is ["gpt-4o"]. *)
Theorem handler_model_omitted (w : World) (ev : Event) (d : gmap string json) :
  loads_body ev = Ok (JDict d) ->
  d !! "model" = None ->
  handler w ev =
    handler w (with_body ev
                 (Some (BodyStr (Dumps (JDict (<["model" := JStr "gpt-4o"]> d)))))) /\
  (forall kwargs,
     In (Converse kwargs) (fst (handler w ev)) ->
     modelId kwargs = "anthropic.claude-4-sonnet-20250514-v1:0") /\
  (forall r c,
     snd (handler w ev) = Ok r ->
     body r = Completion c ->
     statusCode r = 200 /\ OpenAI.model c = "gpt-4o") /\
  (forall token t idn msgs,
     bearer_token ev = Some token ->
     validate_token w token = (t, Ok (Some idn)) ->
     d !! "messages" = Some (JList (map JDict msgs)) ->
     msgs <> [] ->
     exists kwargs,
       modelId kwargs = "anthropic.claude-4-sonnet-20250514-v1:0" /\
       In (Converse kwargs) (fst (handler w ev)) /\
       forall resp,
         converse w kwargs = Ok resp ->
         snd (handler w ev) =
           Ok (response 200 (Completion (to_openai_response w resp "gpt-4o")))).
Proof.
  intros Hloads Hnone.
  assert (Hdflt : dict_get_or d "model" (JStr "gpt-4o") = JStr "gpt-4o")
    by (unfold dict_get_or; now rewrite Hnone).
  split; [|split; [|split] ].
  - symmetry. eapply handler_same_after_parse;
      [reflexivity | exact Hloads | reflexivity |].
    intros idn. now apply chat_completion_default_model.
  - intros kwargs Hin.
    destruct (bearer_token ev) as [token|] eqn:Hb;
      [|rewrite (handler_unauthenticated w ev Hb) in Hin; destruct Hin].
    destruct (validate_token w token) as [t [ [idn|] | e] ] eqn:Hv.
    + rewrite (handler_authenticated w ev token t idn Hb Hv), Hloads in Hin.
      simpl in Hin. apply in_app_or in Hin. destruct Hin as [Hin|Hin].
      * pose proof (validate_token_no_converse w token kwargs) as Hno.
        rewrite Hv in Hno. contradiction.
      * apply (proj1 (chat_completion_shape w idn (JDict d))) in Hin.
        destruct Hin as (d' & model & [= <-] & Hm & ->).
        rewrite Hdflt in Hm. injection Hm as <-. apply resolve_model_gpt_4o.
    + rewrite (handler_rejected w ev token t Hb Hv) in Hin. simpl in Hin.
      pose proof (validate_token_no_converse w token kwargs) as Hno.
      rewrite Hv in Hno. contradiction.
    + rewrite (handler_validation_raises w ev token t e Hb Hv) in Hin.
      simpl in Hin.
      pose proof (validate_token_no_converse w token kwargs) as Hno.
      rewrite Hv in Hno. contradiction.
  - intros r c Hr Hc.
    destruct (bearer_token ev) as [token|] eqn:Hb;
      [|rewrite (handler_unauthenticated w ev Hb) in Hr;
        injection Hr as <-; discriminate Hc].
    destruct (validate_token w token) as [t [ [idn|] | e] ] eqn:Hv.
    + rewrite (handler_authenticated w ev token t idn Hb Hv), Hloads in Hr.
      simpl in Hr.
      apply (proj2 (chat_completion_shape w idn (JDict d))) in Hr.
      destruct Hr as [-> | [ [code ->] | (d' & model & resp & [= <-] & Hm & ->) ] ];
        try discriminate Hc.
      rewrite Hdflt in Hm. injection Hm as <-.
      injection Hc as <-. split; reflexivity.
    + rewrite (handler_rejected w ev token t Hb Hv) in Hr.
      injection Hr as <-. discriminate Hc.
    + rewrite (handler_validation_raises w ev token t e Hb Hv) in Hr.
      discriminate Hr.
  - intros token t idn msgs Hb Hv Hmsgs Hne.
    rewrite (handler_authenticated w ev token t idn Hb Hv), Hloads.
    rewrite (chat_completion_invokes w idn d "gpt-4o" msgs Hdflt Hmsgs Hne).
    eexists. split; [|split].
    2:{ simpl. apply in_or_app. right.
        destruct (converse w _) as [resp|e]; [|destruct e]; simpl;
          right; left; reflexivity. }
    + apply resolve_model_gpt_4o.
    + intros resp Hresp. now rewrite Hresp.
Qed.

(** The request of [test_default_model_when_omitted]. *)
Lemma handler_model_omitted_witness :
  let w := Sample.world Sample.noon (Sample.storing Sample.good) Sample.backend in
  let ev := Sample.authorized (Some (BodyStr (Dumps (JDict Sample.say_hi)))) in
  exists kwargs,
    modelId kwargs = "anthropic.claude-4-sonnet-20250514-v1:0" /\
    In (Converse kwargs) (fst (handler w ev)) /\
    snd (handler w ev) =
      Ok (response 200 (Completion (to_openai_response w Sample.hello "gpt-4o"))).
Proof.
  intros w ev.
  destruct (handler_model_omitted w ev Sample.say_hi) as (_ & _ & _ & H).
  - reflexivity.
  - vm_compute. reflexivity.
  - destruct (H Sample.token [GetSecretValue Sample.name]
                {| identity := JStr "logan@dev";
                   created_at := JStr "2025-01-01T00:00:00+00:00";
                   expires_at := JStr "2025-01-31T00:00:00+00:00" |}
                [Sample.user_says "hi"])
      as (kwargs & Hid & Hin & Hok).
    + vm_compute. reflexivity.
    + vm_compute. reflexivity.
    + vm_compute. reflexivity.
    + discriminate.
    + exists kwargs. split; [exact Hid|]. split; [exact Hin|].
      apply Hok. reflexivity.
Defined.

End DefaultModel.

(* ===================================================================== *)
(** ** The handler on concrete requests *)
(* ===================================================================== *)

Section Examples.

Import Sample.

(** The stored token before its expiry, at the instant of its expiry and
    one microsecond later, and another token with the same first 12
    characters. *)
Lemma validate_token_iff_witness :
  snd (validate_token (world noon (storing good) backend) token)
    = Ok (Some {| identity := JStr "logan@dev";
                  created_at := JStr "2025-01-01T00:00:00+00:00";
                  expires_at := JStr "2025-01-31T00:00:00+00:00" |}) /\
  snd (validate_token (world end_of_january (storing good) backend) token)
    = Ok (Some {| identity := JStr "logan@dev";
                  created_at := JStr "2025-01-01T00:00:00+00:00";
                  expires_at := JStr "2025-01-31T00:00:00+00:00" |}) /\
  snd (validate_token (world (end_of_january + 1) (storing good) backend) token)
    = Ok None /\
  snd (validate_token (world noon (storing good) backend) lookalike)
    = Ok None.
Proof.
  pose (r := {| rec_token := token;
                rec_identity := JStr "logan@dev";
                rec_created_at := JStr "2025-01-01T00:00:00+00:00";
                rec_expires_at := "2025-01-31T00:00:00+00:00" |}).
  assert (Hrec : forall now,
             holds_record (world now (storing good) backend)
               (secret_name_of token) r).
  { intros now. eexists. split; [vm_compute; reflexivity|].
    repeat split; vm_compute; reflexivity. }
  split; [|split; [|split] ].
  - apply (proj1 (validate_token_iff (world noon (storing good) backend) token)).
    exists r, end_of_january.
    split; [apply Hrec|]. split; [reflexivity|].
    split; [vm_compute; reflexivity|]. split; [|reflexivity].
    vm_compute. discriminate.
  - apply (proj1 (proj2 (validate_token_iff
                           (world end_of_january (storing good) backend) token))
             r (Hrec _)).
    + reflexivity.
    + vm_compute. reflexivity.
  - apply (proj1 (proj2 (proj2 (validate_token_iff
                           (world (end_of_january + 1) (storing good) backend)
                           token)))
             r end_of_january (Hrec _)).
    + reflexivity.
    + vm_compute. reflexivity.
    + simpl. lia.
  - eapply (proj2 (proj2 (proj2 (validate_token_iff
                           (world noon (storing good) backend) lookalike)))
              _ token).
    + vm_compute. reflexivity.
    + vm_compute. reflexivity.
    + discriminate.
Defined.

(** No system message, and a system message with empty content. *)
Lemma invoke_bedrock_system_key_witness :
  (exists kwargs,
     fst (invoke_bedrock (world noon (storing good) backend) "some.model"
            (JList [JDict (user_says "Hello")]) ∅) = [Converse kwargs] /\
     system kwargs = None) /\
  (exists kwargs,
     fst (invoke_bedrock (world noon (storing good) backend) "some.model"
            (JList [JDict (system_says ""); JDict (user_says "Hello")]) ∅)
       = [Converse kwargs] /\
     system kwargs = Some [ {| text := JStr "" |} ]).
Proof.
  split.
  - destruct (invoke_bedrock_system_key (world noon (storing good) backend)
                "some.model" [user_says "Hello"] ∅) as (kwargs & Hcall & Hnone & _).
    exists kwargs. split; [exact Hcall|]. apply Hnone. vm_compute. reflexivity.
  - destruct (invoke_bedrock_system_key (world noon (storing good) backend)
                "some.model" [system_says ""; user_says "Hello"] ∅)
      as (kwargs & Hcall & _ & Hsome).
    exists kwargs. split; [exact Hcall|].
    destruct Hsome as (prompts & Hsys & _ & Heq); [vm_compute; reflexivity|].
    rewrite Hsys, Heq. vm_compute. reflexivity.
Defined.

(** C2. On a stored value that is no well-formed record [validate_token]
    does not return a rejection, it raises: a text that is no JSON, a
    record without ["expires_at"], a record without ["identity"], a
    record whose ["expires_at"] is no timestamp.  The handler then raises
    as well, and no 403 is produced. *)
Theorem validate_token_malformed_record_raises :
  let validate stored :=
    validate_token (world noon (storing stored) backend) token in
  validate not_json = ([GetSecretValue name], Raise JSONDecodeError) /\
  validate no_expiry = ([GetSecretValue name], Raise (KeyError "expires_at")) /\
  validate no_identity = ([GetSecretValue name], Raise (KeyError "identity")) /\
  validate bad_expiry = ([GetSecretValue name], Raise ValueError) /\
  handler (world noon (storing not_json) backend)
          (authorized (Some (BodyStr (Dumps (JDict say_hi)))))
    = ([GetSecretValue name], Raise JSONDecodeError).
Proof. repeat split; vm_compute; reflexivity. Qed.

(** Where the validation does fail closed: a name the store does not
    hold, and a store that answers with a service error. *)
Lemma validate_token_fails_closed :
  validate_token (world noon (serving ∅) backend) token
    = ([GetSecretValue name], Ok None) /\
  validate_token (world noon (unavailable "InternalServiceError") backend) token
    = ([GetSecretValue name], Ok None).
Proof. split; vm_compute; reflexivity. Qed.

(** C3. An authenticated request whose body is valid JSON but no object
    ([null], an array), whose body is absent from the request ([null] in
    the event), or whose messages are no objects, is not answered with
    the 400 envelope: the handler raises and produces no response. *)
Theorem handler_bad_payload_raises :
  let handle body :=
    handler (world noon (storing good) backend) (authorized (Some body)) in
  handle (BodyStr (Dumps JNull)) = ([GetSecretValue name], Raise AttributeError) /\
  handle (BodyStr (Dumps (JList []))) = ([GetSecretValue name], Raise AttributeError) /\
  handle BodyNull = ([GetSecretValue name], Raise TypeError) /\
  handle (BodyStr (Dumps (JDict {[ "messages" := JList [JStr "hi"] ]})))
    = ([GetSecretValue name;
        Log (LogRequest (JStr "logan@dev") "gpt-4o"
               "anthropic.claude-4-sonnet-20250514-v1:0" 1)],
       Raise AttributeError).
Proof. repeat split; vm_compute; reflexivity. Qed.

End Examples.
